(** * stay-safe-api-gateway: the generic proxy handler and the error resolver

    A shallow embedding of [src/utils/requests.js]: [resolveError], the two
    error-handling profiles chosen by [defaultErrorHandler],
    [defaultTargetOptions], [resolveDefault] and [defaultProxyRequest].

    JavaScript objects are finite maps from property names to values.  The
    effects of a handler (the outbound call, [res.status(..).json(..)],
    [next(err)], [logger.error(..)]) are collected, in program order, in a
    trace of events. *)

From Stdlib Require Import ZArith String Ascii List DecimalString.
From stdpp Require Import base option list gmap strings fin_maps.

Local Open Scope string_scope.
Local Open Scope Z_scope.
Local Open Scope list_scope.

Set Warnings "-register-all".

(** ** JavaScript values *)

(** The values that flow through the module: the primitives and plain objects.
    A number is an integer-valued double or [NaN]; a plain object maps its
    property names to values. *)
Inductive value : Type :=
| VUndefined
| VNull
| VBool (b : bool)
| VNum (n : Z)
| VNaN
| VStr (s : string)
| VObj (fields : gmap string value).

Abbreviation object := (gmap string value).

(** [ToBoolean]: the test made by [if (v)], [v || w] and [c ? a : b]. *)
Definition truthy (v : value) : bool :=
  match v with
  | VUndefined | VNull | VNaN => false
  | VBool b => b
  | VNum n => negb (n =? 0)
  | VStr s => negb (String.eqb s EmptyString)
  | VObj _ => true
  end.

(** [v || w] *)
Definition js_or (v w : value) : value := if truthy v then v else w.

(** [ToString], as a template literal applies it to an interpolated value.
    Integers print in decimal (as JavaScript does below 10^21); a plain
    object prints through [Object.prototype.toString]. *)
Definition ToString (v : value) : string :=
  match v with
  | VUndefined => "undefined"
  | VNull => "null"
  | VBool true => "true"
  | VBool false => "false"
  | VNum n => NilZero.string_of_int (Z.to_int n)
  | VNaN => "NaN"
  | VStr s => s
  | VObj _ => "[object Object]"
  end.

(** [o.k] on an object: the property, or [undefined] when it is absent. *)
Definition get (o : object) (k : string) : value := default VUndefined (o !! k).

(** ** Errors *)

(** Modelled from the spec: the class [ApiError] of [../error/api-error],
    which is not among the sources.  A domain error carries a status code (its
    [statusCode] property) and a JSON payload, the value that [err.toJSON()]
    returns. *)
Inductive error_class : Type :=
| GenericError
| ApiError (json : value).

(** An [Error] object: its class and its properties.  What is thrown, what a
    promise is rejected with and what reaches [resolveError] is taken to be
    such an object, as the JSDoc of [resolveError] has it
    ([@param {Error} err]). *)
Record js_error : Type := mkError {
  class : error_class;
  props : gmap string value
}.

(** ** Effects *)

Inductive event : Type :=
| Outbound (options : gmap string value)   (* baseRequest(options) *)
| Respond (status body : value)            (* res.status(status).json(body) *)
| Next (err : js_error)                    (* next(err) *)
| LogError (message : string) (meta : gmap string value).
                                           (* logger.error(message, meta) *)

Inductive completion (A : Type) : Type :=
| Normal (a : A)
| Throw (e : js_error).
Arguments Normal {A} a.
Arguments Throw {A} e.

(** A computation: the events it performs, then how it completes. *)
Definition js (A : Type) : Type := (list event * completion A)%type.

Definition ret {A} (a : A) : js A := ([], Normal a).

Definition bind {A B} (m : js A) (f : A -> js B) : js B :=
  match m with
  | (t, Normal a) => let '(t', r) := f a in (t ++ t', r)
  | (t, Throw e) => (t, Throw e)
  end.

Definition throw {A} (e : js_error) : js A := ([], Throw e).

Definition emit (ev : event) : js unit := ([ev], Normal tt).

(** [try { m } catch (err) { h err }] *)
Definition try_catch {A} (m : js A) (h : js_error -> js A) : js A :=
  match m with
  | (t, Normal a) => (t, Normal a)
  | (t, Throw e) => let '(t', r) := h e in (t ++ t', r)
  end.

#[global] Instance js_ret : MRet js := @ret.
#[global] Instance js_bind : MBind js := fun A B f m => bind m f.

Definition trace {A} (m : js A) : list event := fst m.
Definition outcome_of {A} (m : js A) : completion A := snd m.

(** How an awaited promise settles. *)
Inductive settled : Type :=
| Fulfilled (v : value)
| Rejected (err : js_error).

(** [await p] *)
Definition await (p : settled) : js value :=
  match p with
  | Fulfilled v => ret v
  | Rejected err => throw err
  end.

(** The [TypeError] of a property read on [undefined] or [null]. *)
Definition TypeError (k : string) (v : value) : js_error :=
  mkError GenericError
    {[ "message" := VStr ("Cannot read property '" +:+ k +:+ "' of " +:+ ToString v) ]}.

(** [v.k] on any value, for a name [k] that the built-in prototypes do not
    define (as [statusCode] and [body]): a primitive has no such property, and
    [undefined] and [null] have no properties at all. *)
Definition member (v : value) (k : string) : js value :=
  match v with
  | VUndefined | VNull => throw (TypeError k v)
  | VObj o => ret (get o k)
  | VBool _ | VNum _ | VNaN | VStr _ => ret VUndefined
  end.

(** [res.status(status).json(body)].  The Express response object is not
    part of the sources: the call is recorded with its two arguments as they
    are passed.  What Express does with them afterwards is not modelled: it
    throws on a status that Node refuses, whereas the recorded call always
    returns. *)
Definition res_status_json (status body : value) : js unit :=
  emit (Respond status body).

(** [logger.error(message, meta)].  The logger of [./log.js] is not part of
    the sources either: the entry is recorded as it is handed over. *)
Definition logger_error (message : string) (meta : gmap string value) : js unit :=
  emit (LogError message meta).

Definition next (err : js_error) : js unit := emit (Next err).

(** ** [resolveError] *)

(** [_.extend(dst, src)]: every enumerable property of [src] is assigned on
    [dst].  A number or a boolean has none.  A non-empty string has its
    indices only, which no caller reads; they are left out. *)
Definition extend (dst : gmap string value) (src : value) : gmap string value :=
  match src with
  | VObj o => o ∪ dst
  | _ => dst
  end.

Definition default_options : gmap string value :=
  {[ "unknownErrorMessage" := VStr "Internal Server Error";
     "log" := VBool false;
     "displayErrorReason" := VBool false ]}.

(** [_.extend({...}, options || {})] *)
Definition effective_options (options : value) : gmap string value :=
  extend default_options (js_or options (VObj ∅)).

Definition resolveError (err : js_error) (req : gmap string value)
    (options : value) : js unit :=
  let opts := effective_options options in
  match class err with
  | ApiError json =>
      res_status_json (get (props err) "statusCode") json
  | GenericError =>
      if truthy (get (props err) "statusCode") then
        res_status_json (get (props err) "statusCode") (get (props err) "error")
      else
        (if truthy (get opts "log") then
           logger_error
             (ToString (get opts "unknownErrorMessage") +:+ ". Reason: "
                +:+ ToString (get (props err) "message"))
             {[ "req" := VObj req; "stack" := get (props err) "stack" ]}
         else ret tt) ;;
        let errorMessage :=
          if truthy (get opts "displayErrorReason") then
            ToString (get opts "unknownErrorMessage") +:+ ". Reason: "
              +:+ ToString (get (props err) "message")
          else ToString (get opts "unknownErrorMessage") in
        res_status_json (VNum 500) (VObj {[ "message" := VStr errorMessage ]})
  end.

(** ** The two profiles *)

Definition developmentErrorHandler (err : js_error) (req : gmap string value)
    : js unit :=
  resolveError err req
    (VObj {[ "log" := VBool true; "req" := VObj req;
             "displayErrorReason" := VBool true ]}).

Definition productionErrorHandler (err : js_error) (req : gmap string value)
    : js unit :=
  resolveError err req (VObj {[ "log" := VBool true; "req" := VObj req ]}).

(** [environment == 'localhost'].  Of the values modelled only the string
    itself is loosely equal to ['localhost']: [undefined] and [null] equal
    nothing but each other, a number or a boolean is compared with
    [Number('localhost')], which is [NaN], and a plain object with its string
    form ["[object Object]"]. *)
Definition eq_localhost (environment : value) : bool :=
  match environment with
  | VStr s => String.eqb s "localhost"
  | _ => false
  end.

Definition defaultErrorHandler (environment : value)
    : js_error -> gmap string value -> js unit :=
  if eq_localhost environment then developmentErrorHandler
  else productionErrorHandler.

(** ** The forwarder *)

Definition defaultTargetOptions (req : gmap string value) (uri : value)
    : gmap string value :=
  {[ "method" := get req "method";
     "uri" := js_or uri (get req "originalUrl");
     "headers" := get req "passedHeaders";
     "body" := get req "body";
     "qs" := get req "query" ]}.

(** [requestPromise.then(response => res.status(..).json(..))]: the events,
    and how the promise returned settles. *)
Definition resolveDefault (requestPromise : settled) : js unit :=
  response ← await requestPromise;
  statusCode ← member response "statusCode";
  body ← member response "body";
  res_status_json statusCode body.

(** The handler that [defaultProxyRequest(baseRequest, uri)] returns.
    [baseRequest] gives, for the options of a call, how the promise of the
    call settles (a synchronous throw is a rejection under [await]). *)
Definition defaultProxyRequest (baseRequest : gmap string value -> settled)
    (uri : value) (req : gmap string value) : js unit :=
  try_catch
    (let options := defaultTargetOptions req uri in
     response ← (emit (Outbound options);; await (baseRequest options));
     statusCode ← member response "statusCode";
     body ← member response "body";
     res_status_json statusCode body)
    (fun err => next err).

(** ** Reading a trace *)

(** The responses written to the caller, as pairs of status and body. *)
Definition responses (t : list event) : list (value * value) :=
  omap (fun e => match e with Respond s b => Some (s, b) | _ => None end) t.

(** The options of the outbound calls issued. *)
Definition outbound_calls (t : list event) : list (gmap string value) :=
  omap (fun e => match e with Outbound o => Some o | _ => None end) t.

(** The errors handed to [next]. *)
Definition propagated (t : list event) : list js_error :=
  omap (fun e => match e with Next err => Some err | _ => None end) t.

(** The entries recorded by the logger. *)
Definition logged (t : list event) : list (string * gmap string value) :=
  omap (fun e => match e with LogError m meta => Some (m, meta) | _ => None end) t.

(** ** The options, spelled out *)

(** What an options argument supplies for a key: nothing unless it is an
    object that has the key. *)
Definition supplied (options : value) (k : string) : option value :=
  match options with
  | VObj o => o !! k
  | _ => None
  end.

(** The recognized options of [ResolveErrorOptions]. *)
Definition recognized : list string :=
  ["unknownErrorMessage"; "log"; "displayErrorReason"].

(** The options in full, as the description of the three recognized options
    has it: each key holds the value that the argument supplies for it, or
    else its own default. *)
Definition with_defaults (options : value) : gmap string value :=
  {[ "unknownErrorMessage" :=
       default (VStr "Internal Server Error")
         (supplied options "unknownErrorMessage");
     "log" := default (VBool false) (supplied options "log");
     "displayErrorReason" :=
       default (VBool false) (supplied options "displayErrorReason") ]}.

(** ** Sample requests, responses and failures *)

Definition get_tags : gmap string value :=
  {[ "method" := VStr "GET"; "originalUrl" := VStr "/tags";
     "passedHeaders" := VObj ∅; "query" := VObj ∅ ]}.

Definition tags_response : gmap string value :=
  {[ "statusCode" := VNum 200;
     "body" := VObj {[ "tags" := VStr "a,b" ]} ]}.

Definition oops_options : value :=
  VObj {[ "unknownErrorMessage" := VStr "Oops";
          "displayErrorReason" := VBool true ]}.

Definition ECONNREFUSED : js_error :=
  mkError GenericError
    {[ "message" := VStr "ECONNREFUSED"; "stack" := VStr "Error: ECONNREFUSED" ]}.

Definition not_found : js_error :=
  mkError (ApiError (VObj {[ "message" := VStr "Tag not found" ]}))
    {[ "statusCode" := VNum 404; "message" := VStr "Tag not found" ]}.

Definition bad_gateway : js_error :=
  mkError GenericError
    {[ "statusCode" := VNum 502;
       "error" := VObj {[ "code" := VStr "UPSTREAM_DOWN" ]};
       "message" := VStr "502 - upstream down" ]}.

Definition bare_status : js_error :=
  mkError GenericError {[ "statusCode" := VNum 503 ]}.

Definition zero_status : js_error :=
  mkError GenericError
    {[ "statusCode" := VNum 0; "error" := VObj {[ "code" := VStr "E" ]};
       "message" := VStr "socket hang up" ]}.

(** ** The rest of the module: [cors], the exports and their use *)

(** What the CORS middleware does to the response and the chain. *)
Inductive cors_event : Type :=
| Header (name : string) (v : value)   (* res.header(name, v) *)
| NextStage.                           (* next() *)

(** [v.k = x] in non-strict code (the module has no ['use strict']), on a
    value whose property [k] has just been read: an object gets the property;
    on a primitive the assignment is dropped. *)
Definition assign (v : value) (k : string) (x : value) : value :=
  match v with
  | VObj o => VObj (<[ k := x ]> o)
  | _ => v
  end.

(** [cors(options = {})], up to the [return]: the default parameter stands
    in for [undefined] only, then
    [options.allowedOrigin = options.allowedOrigin || '*'].  The result is
    the options value that the returned closure holds, which for an object is
    the caller's own object after the assignment. *)
Definition cors (options : value) : js value :=
  let options := match options with VUndefined => VObj ∅ | _ => options end in
  allowedOrigin ← member options "allowedOrigin";
  ret (assign options "allowedOrigin" (js_or allowedOrigin (VStr "*"))).

(** The middleware that [cors] returns, run on the options it holds. *)
Definition cors_middleware (options : value) : completion (list cors_event) :=
  match outcome_of (member options "allowedOrigin") with
  | Normal allowedOrigin =>
      Normal
        [Header "Access-Control-Allow-Origin" allowedOrigin;
         Header "Access-Control-Allow-Headers"
           (VStr "Origin, X-Requested-With, Content-Type, Accept,Authorization");
         Header "Access-Control-Allow-Methods"
           (VStr "OPTIONS,GET,PUT,POST,DELETE");
         NextStage]
  | Throw e => Throw e
  end.

(** [cors(options)(req, res, next)]: the middleware is built, then run. *)
Definition cors_request (options : value) : completion (list cors_event) :=
  match outcome_of (cors options) with
  | Normal held => cors_middleware held
  | Throw e => Throw e
  end.

(** [module.exports.defaultProxyHandler] *)
Definition defaultProxyHandler := defaultProxyRequest.

(** The handler that [src/controller/tags.js] registers for [GET /] and for
    [POST /]: [reqUtils.defaultProxyHandler(dataServiceRequest)], with no
    override. *)
Definition tags_handler (dataServiceRequest : gmap string value -> settled)
    : gmap string value -> js unit :=
  defaultProxyHandler dataServiceRequest VUndefined.

(** The fields of the inbound request that [defaultTargetOptions] reads. *)
Definition forwarded_fields : list string :=
  ["method"; "originalUrl"; "passedHeaders"; "body"; "query"].

Definition cors_headers (origin : value) : list cors_event :=
  [Header "Access-Control-Allow-Origin" origin;
   Header "Access-Control-Allow-Headers"
     (VStr "Origin, X-Requested-With, Content-Type, Accept,Authorization");
   Header "Access-Control-Allow-Methods" (VStr "OPTIONS,GET,PUT,POST,DELETE");
   NextStage].

Definition with_cookie : gmap string value :=
  <[ "headers" := VObj {[ "cookie" := VStr "sid=1" ]} ]> get_tags.

(** Runs the monadic skeleton of a handler, leaving property reads alone. *)
Ltac js_run :=
  cbv [mbind js_bind bind emit ret throw await member try_catch
       res_status_json logger_error next app].

(** * Properties *)

(** ** The model at work *)

Example get_present : get {[ "a" := VNum 1; "b" := VStr "x" ]} "b" = VStr "x".
Proof. reflexivity. Qed.

Example get_absent : get {[ "a" := VNum 1 ]} "b" = VUndefined.
Proof. reflexivity. Qed.

Example ToString_negative : ToString (VNum (-42)) = "-42".
Proof. reflexivity. Qed.

Example verbose_scenario :
  responses (trace (defaultErrorHandler (VStr "localhost") ECONNREFUSED get_tags))
  = [(VNum 500,
      VObj {[ "message" := VStr "Internal Server Error. Reason: ECONNREFUSED" ]})].
Proof. vm_compute. reflexivity. Qed.

Example terse_scenario :
  responses (trace (defaultErrorHandler (VStr "production") ECONNREFUSED get_tags))
  = [(VNum 500, VObj {[ "message" := VStr "Internal Server Error" ]})].
Proof. vm_compute. reflexivity. Qed.

Example zero_status_answer :
  resolveError zero_status get_tags VUndefined
  = ([Respond (VNum 500) (VObj {[ "message" := VStr "Internal Server Error" ]})],
     Normal tt).
Proof. vm_compute. reflexivity. Qed.

Example only_log_supplied :
  with_defaults (VObj {[ "log" := VBool true ]})
  = {[ "unknownErrorMessage" := VStr "Internal Server Error";
       "log" := VBool true;
       "displayErrorReason" := VBool false ]}.
Proof. vm_compute. reflexivity. Qed.

Example get_tags_descriptor :
  defaultTargetOptions get_tags VUndefined
  = {[ "method" := VStr "GET"; "uri" := VStr "/tags";
       "headers" := VObj ∅; "body" := VUndefined; "qs" := VObj ∅ ]}.
Proof. vm_compute. reflexivity. Qed.

(** A backend that answers [undefined]: the property read throws inside the
    [try], and the [TypeError] goes to [next] like any failure. *)
Example undefined_response :
  defaultProxyRequest (fun _ => Fulfilled VUndefined) VUndefined get_tags
  = ([Outbound (defaultTargetOptions get_tags VUndefined);
      Next (TypeError "statusCode" VUndefined)], Normal tt).
Proof. reflexivity. Qed.

(** ** Strings *)

Lemma append_cons (c : ascii) (s t : string) :
  String c s +:+ t = String c (s +:+ t).
Proof. reflexivity. Qed.

Lemma append_nil_r (s : string) : s +:+ EmptyString = s.
Proof.
  induction s as [|c s IH]; [reflexivity |].
  rewrite append_cons. by f_equal.
Qed.

Lemma append_same_inv (s t : string) : s +:+ t = s -> t = EmptyString.
Proof.
  intros H. apply (inj (String.append s)). by rewrite append_nil_r.
Qed.

Lemma prefix_append (s t : string) : String.prefix s (s +:+ t) = true.
Proof.
  induction s as [|c s IH]; [by destruct t |].
  rewrite append_cons. simpl.
  destruct (ascii_dec c c); [exact IH | congruence].
Qed.

(** ** Options *)

Lemma get_effective_options (options : value) (k : string) :
  get (effective_options options) k
  = default (get default_options k) (supplied options k).
Proof.
  unfold effective_options, js_or, get.
  destruct options as [| |b|n| |s|o]; cbn [truthy extend supplied].
  7: { rewrite lookup_union.
       destruct (o !! k), (default_options !! k); reflexivity. }
  all: try (rewrite (left_id_L ∅ (∪)); reflexivity).
  all: match goal with |- context [if ?c then _ else _] => destruct c end.
  all: cbn [extend]; try rewrite (left_id_L ∅ (∪)); reflexivity.
Qed.

Lemma recognized_cases (k : string) :
  k ∈ recognized ->
  k = "unknownErrorMessage" \/ k = "log" \/ k = "displayErrorReason".
Proof.
  unfold recognized. rewrite !elem_of_cons, elem_of_nil. tauto.
Qed.

Lemma get_with_defaults (options : value) (k : string) :
  k ∈ recognized ->
  get (effective_options (VObj (with_defaults options))) k
  = get (effective_options options) k.
Proof.
  intros Hk. rewrite !get_effective_options.
  destruct (recognized_cases k Hk) as [-> | [-> | ->]]; reflexivity.
Qed.

Lemma absent_statusCode_falsy (o : gmap string value) :
  o !! "statusCode" = None -> truthy (get o "statusCode") = false.
Proof. intros H. unfold get. by rewrite H. Qed.

(** ** The error resolver *)

Section Resolver.

Variable err : js_error.
Variable req : gmap string value.

(** [resolveError] reads its options at the three recognized keys only. *)
Lemma resolveError_options_ext (o1 o2 : value) :
  (forall k : string,
     k ∈ recognized ->
     get (effective_options o1) k = get (effective_options o2) k) ->
  resolveError err req o1 = resolveError err req o2.
Proof.
  intros H. unfold resolveError.
  rewrite (H "unknownErrorMessage"), (H "log"), (H "displayErrorReason")
    by (unfold recognized; repeat constructor).
  reflexivity.
Qed.

(** Either handler is [resolveError] under its profile: [log] is on, and
    [displayErrorReason] is on for ['localhost'] only. *)
Lemma defaultErrorHandler_resolveError (environment : value) :
  defaultErrorHandler environment err req
  = resolveError err req
      (VObj {[ "log" := VBool true;
               "displayErrorReason" := VBool (eq_localhost environment) ]}).
Proof.
  unfold defaultErrorHandler.
  destruct (eq_localhost environment);
    [unfold developmentErrorHandler | unfold productionErrorHandler];
    apply resolveError_options_ext; intros k Hk;
    rewrite !get_effective_options;
    destruct (recognized_cases k Hk) as [-> | [-> | ->]]; reflexivity.
Qed.

(** C2. A domain error (an [ApiError]) with status code [C] and JSON payload
    [P] is answered with status [C] and body [P], and with nothing else,
    whatever the options are; so it is under either profile. *)
Theorem resolveError_domain_error (C P : value) :
  class err = ApiError P ->
  get (props err) "statusCode" = C ->
  (forall options : value,
     resolveError err req options = ([Respond C P], Normal tt))
  /\ (forall environment : value,
        defaultErrorHandler environment err req = ([Respond C P], Normal tt)).
Proof.
  intros Hc Hs.
  assert (Hall : forall options,
             resolveError err req options = ([Respond C P], Normal tt)).
  { intros options. unfold resolveError. rewrite Hc, Hs. reflexivity. }
  split; [exact Hall |].
  intros environment. rewrite defaultErrorHandler_resolveError. apply Hall.
Qed.

(** C7. The three recognized options are defaulted one by one.  The value in
    effect for each of [unknownErrorMessage], [log] and [displayErrorReason]
    is the one the options argument supplies, whatever it is, and where the
    argument has no such key it is ["Internal Server Error"], [false] and
    [false]; a missing or [null] argument (any falsy one) supplies nothing,
    so all three defaults apply.  On an unclassified failure [resolveError]
    logs, and builds its message, from exactly these three values; and in
    every case it does what it does with the options spelled out in full. *)
Theorem resolveError_options_defaulted (options : value) :
  let chosen (k : string) (d : value) := default d (supplied options k) in
  let message := chosen "unknownErrorMessage" (VStr "Internal Server Error") in
  let log := chosen "log" (VBool false) in
  let display := chosen "displayErrorReason" (VBool false) in
  (truthy options = false ->
   message = VStr "Internal Server Error"
   /\ log = VBool false /\ display = VBool false)
  /\ (get (effective_options options) "unknownErrorMessage" = message
      /\ get (effective_options options) "log" = log
      /\ get (effective_options options) "displayErrorReason" = display)
  /\ (class err = GenericError ->
      truthy (get (props err) "statusCode") = false ->
      let detailed :=
        ToString message +:+ ". Reason: "
          +:+ ToString (get (props err) "message") in
      let answer :=
        Respond (VNum 500)
          (VObj {[ "message" :=
                     VStr (if truthy display then detailed
                           else ToString message) ]}) in
      resolveError err req options
      = (if truthy log
         then [LogError detailed
                 {[ "req" := VObj req; "stack" := get (props err) "stack" ]};
               answer]
         else [answer],
         Normal tt))
  /\ resolveError err req options
     = resolveError err req (VObj (with_defaults options))
  /\ (truthy options = false ->
      resolveError err req options
      = resolveError err req
          (VObj {[ "unknownErrorMessage" := VStr "Internal Server Error";
                   "log" := VBool false;
                   "displayErrorReason" := VBool false ]})).
Proof.
  intros chosen message log display.
  assert (Hm : get (effective_options options) "unknownErrorMessage" = message)
    by apply get_effective_options.
  assert (Hl : get (effective_options options) "log" = log)
    by apply get_effective_options.
  assert (Hd : get (effective_options options) "displayErrorReason" = display)
    by apply get_effective_options.
  split; [| split; [| split; [| split]]].
  - intros Hf. subst message log display chosen.
    destruct options; try discriminate Hf; by repeat split.
  - by repeat split.
  - intros Hc Ht detailed answer. subst detailed answer.
    unfold resolveError. rewrite Hc, Ht, Hm, Hl, Hd.
    destruct (truthy log); reflexivity.
  - apply resolveError_options_ext. intros k Hk.
    symmetry. by apply get_with_defaults.
  - intros Hf. apply resolveError_options_ext. intros k Hk.
    rewrite !get_effective_options.
    destruct options; try discriminate Hf;
      destruct (recognized_cases k Hk) as [-> | [-> | ->]]; reflexivity.
Qed.

(** *** Failures that are not domain errors *)

Hypothesis not_ApiError : class err = GenericError.

(** C4. A failure that is not a domain error and carries a status code [C]
    (one that [if (err.statusCode)] accepts, as every HTTP status code is) is
    answered with status [C] and with the payload [E] attached to it as
    [err.error], both untouched, and with nothing else. *)
Theorem resolveError_upstream_error (options C E : value) :
  props err !! "statusCode" = Some C ->
  truthy C = true ->
  props err !! "error" = Some E ->
  resolveError err req options = ([Respond C E], Normal tt).
Proof.
  intros Hs Ht He. unfold resolveError, get.
  rewrite not_ApiError, Hs, He. simpl. rewrite Ht. reflexivity.
Qed.

(** C9. A failure that is not an [ApiError], has a truthy [statusCode] and no
    [error] property is still answered on the upstream branch: with that
    status code and the body [undefined].  Nothing is logged and no 500
    message is built. *)
Theorem resolveError_upstream_without_payload (options : value) :
  truthy (get (props err) "statusCode") = true ->
  props err !! "error" = None ->
  resolveError err req options
  = ([Respond (get (props err) "statusCode") VUndefined], Normal tt).
Proof.
  intros Ht He. unfold resolveError.
  rewrite not_ApiError, Ht. unfold get at 2. rewrite He. reflexivity.
Qed.

(** The unclassified branch, for any failure that reaches it. *)
Lemma resolveError_unclassified_branch (options : value) :
  truthy (get (props err) "statusCode") = false ->
  let opts := effective_options options in
  let generic := ToString (get opts "unknownErrorMessage") in
  let detailed :=
    generic +:+ ". Reason: " +:+ ToString (get (props err) "message") in
  let answer :=
    Respond (VNum 500)
      (VObj {[ "message" :=
                 VStr (if truthy (get opts "displayErrorReason")
                       then detailed else generic) ]}) in
  resolveError err req options
  = (if truthy (get opts "log")
     then [LogError detailed
             {[ "req" := VObj req; "stack" := get (props err) "stack" ]};
           answer]
     else [answer],
     Normal tt).
Proof.
  intros Ht. unfold resolveError. rewrite not_ApiError, Ht.
  destruct (truthy (get (effective_options options) "log")); reflexivity.
Qed.

(** C3. An unclassified failure (not a domain error, no status code) is
    answered with status 500 and a body [{message: m}].  The message starts
    with the generic configured message; it is the generic message followed by
    [". Reason: "] and the failure's reason text exactly when
    [displayErrorReason] is on, and the generic message alone otherwise.  When
    [log] is on, one entry holding the generic message and the reason, with
    the request and the stack trace, is recorded before the response is
    written; otherwise the response is the only effect. *)
Theorem resolveError_unclassified (options : value) :
  props err !! "statusCode" = None ->
  let opts := effective_options options in
  let generic := ToString (get opts "unknownErrorMessage") in
  let reason := ToString (get (props err) "message") in
  let detailed := generic +:+ ". Reason: " +:+ reason in
  exists m : string,
    responses (trace (resolveError err req options))
    = [(VNum 500, VObj {[ "message" := VStr m ]})]
    /\ String.prefix generic m = true
    /\ (m = detailed <-> truthy (get opts "displayErrorReason") = true)
    /\ (m = generic <-> truthy (get opts "displayErrorReason") = false)
    /\ (truthy (get opts "log") = true ->
        trace (resolveError err req options)
        = [LogError detailed
             {[ "req" := VObj req; "stack" := get (props err) "stack" ]};
           Respond (VNum 500) (VObj {[ "message" := VStr m ]})])
    /\ (truthy (get opts "log") = false ->
        trace (resolveError err req options)
        = [Respond (VNum 500) (VObj {[ "message" := VStr m ]})])
    /\ outcome_of (resolveError err req options) = Normal tt.
Proof.
  intros Hs opts generic reason detailed.
  pose proof (resolveError_unclassified_branch options
                (absent_statusCode_falsy _ Hs)) as Hrun.
  cbv zeta in Hrun. fold opts generic reason detailed in Hrun.
  assert (Hne : detailed <> generic).
  { intros Heq. unfold detailed in Heq.
    apply append_same_inv in Heq. discriminate Heq. }
  exists (if truthy (get opts "displayErrorReason") then detailed else generic).
  rewrite Hrun.
  split; [by destruct (truthy (get opts "log")) |].
  split.
  { destruct (truthy (get opts "displayErrorReason"));
      [apply prefix_append
      | rewrite <- (append_nil_r generic) at 2; apply prefix_append]. }
  split; [destruct (truthy (get opts "displayErrorReason")); split; congruence |].
  split; [destruct (truthy (get opts "displayErrorReason")); split; congruence |].
  split; [intros ->; reflexivity |].
  split; [intros ->; reflexivity |].
  reflexivity.
Qed.


(** The two profiles on an unclassified failure: the same log entry, and the
    reason in the response for ['localhost'] only. *)
Lemma defaultErrorHandler_unclassified (environment : value) :
  truthy (get (props err) "statusCode") = false ->
  let detailed :=
    "Internal Server Error. Reason: "
      +:+ ToString (get (props err) "message") in
  trace (defaultErrorHandler environment err req)
  = [LogError detailed
       {[ "req" := VObj req; "stack" := get (props err) "stack" ]};
     Respond (VNum 500)
       (VObj {[ "message" :=
                  VStr (if eq_localhost environment then detailed
                        else "Internal Server Error") ]})].
Proof.
  intros Hf detailed. rewrite defaultErrorHandler_resolveError.
  rewrite (resolveError_unclassified_branch _ Hf).
  rewrite !get_effective_options.
  destruct (eq_localhost environment); reflexivity.
Qed.

End Resolver.

Lemma eq_localhost_spec (environment : value) :
  eq_localhost environment = true <-> environment = VStr "localhost".
Proof.
  unfold eq_localhost. destruct environment; try (split; discriminate).
  split.
  - intros H. apply String.eqb_eq in H. by subst.
  - intros H. injection H as ->. reflexivity.
Qed.

(** C6 (amended). The profile is chosen from the environment name alone, by
    the test [environment == 'localhost']: the name ['localhost'] selects the
    verbose profile, and every other environment, ['development'], ['dev']
    and ['local'] included, the terse one.  The handler chosen resolves the
    error with [log] on under both profiles, and with [displayErrorReason] on
    under the verbose profile only.  For an unclassified failure, therefore,
    both profiles record the same log entry, and the reason is in the
    response under the verbose profile only. *)
Theorem defaultErrorHandler_profiles (environment : value) :
  let verbose := eq_localhost environment in
  (verbose = true <-> environment = VStr "localhost")
  /\ (forall (err : js_error) (req : gmap string value),
        defaultErrorHandler environment err req
        = resolveError err req
            (VObj {[ "log" := VBool true;
                     "displayErrorReason" := VBool verbose ]}))
  /\ (forall (err : js_error) (req : gmap string value),
        class err = GenericError ->
        truthy (get (props err) "statusCode") = false ->
        let detailed :=
          "Internal Server Error. Reason: "
            +:+ ToString (get (props err) "message") in
        trace (defaultErrorHandler environment err req)
        = [LogError detailed
             {[ "req" := VObj req; "stack" := get (props err) "stack" ]};
           Respond (VNum 500)
             (VObj {[ "message" :=
                        VStr (if verbose then detailed
                              else "Internal Server Error") ]})]).
Proof.
  intros verbose. split; [apply eq_localhost_spec | split].
  - intros err req. apply defaultErrorHandler_resolveError.
  - intros err req Hc Hf. by apply defaultErrorHandler_unclassified.
Qed.

(** ** The forwarder *)

Section Forwarder.

Variable baseRequest : gmap string value -> settled.
Variable uri : value.
Variable req : gmap string value.


(** C1. When the backend answers with a response of status code [S] and body
    [B], the proxy handler issues the outbound call and writes one response
    to the caller, with status [S] and body [B] as they are; [resolveDefault]
    writes the same response for a promise fulfilled with that answer. *)
Theorem proxy_pass_through (response : gmap string value) (S B : value) :
  baseRequest (defaultTargetOptions req uri) = Fulfilled (VObj response) ->
  response !! "statusCode" = Some S ->
  response !! "body" = Some B ->
  defaultProxyRequest baseRequest uri req
  = ([Outbound (defaultTargetOptions req uri); Respond S B], Normal tt)
  /\ resolveDefault (Fulfilled (VObj response)) = ([Respond S B], Normal tt).
Proof.
  intros Hb Hs Hbody.
  unfold defaultProxyRequest, resolveDefault. cbv zeta. rewrite Hb.
  js_run. unfold get. rewrite Hs, Hbody.
  split; reflexivity.
Qed.

(** C8. The handler issues the outbound call exactly once, whatever comes of
    it.  When the call fails, the handler writes no response and logs
    nothing: its only other effect is to hand the failure, as it is, to
    [next]. *)
Theorem proxy_failure_propagated :
  outbound_calls (trace (defaultProxyRequest baseRequest uri req))
  = [defaultTargetOptions req uri]
  /\ (forall err : js_error,
        baseRequest (defaultTargetOptions req uri) = Rejected err ->
        defaultProxyRequest baseRequest uri req
        = ([Outbound (defaultTargetOptions req uri); Next err], Normal tt)
        /\ responses (trace (defaultProxyRequest baseRequest uri req)) = []
        /\ logged (trace (defaultProxyRequest baseRequest uri req)) = []
        /\ propagated (trace (defaultProxyRequest baseRequest uri req)) = [err]).
Proof.
  split.
  - unfold defaultProxyRequest. cbv zeta.
    destruct (baseRequest (defaultTargetOptions req uri)) as [v | err];
      [destruct v |]; reflexivity.
  - intros err Hb. unfold defaultProxyRequest. cbv zeta. rewrite Hb.
    repeat split; reflexivity.
Qed.

End Forwarder.

(** ** The theorems at concrete inputs *)

Lemma resolveError_domain_error_witness :
  resolveError not_found get_tags (VObj {[ "displayErrorReason" := VBool true ]})
  = ([Respond (VNum 404) (VObj {[ "message" := VStr "Tag not found" ]})],
     Normal tt).
Proof.
  apply (resolveError_domain_error not_found get_tags (VNum 404)
           (VObj {[ "message" := VStr "Tag not found" ]}));
    reflexivity.
Defined.

Lemma resolveError_options_defaulted_witness :
  resolveError ECONNREFUSED get_tags oops_options
  = ([Respond (VNum 500)
        (VObj {[ "message" := VStr "Oops. Reason: ECONNREFUSED" ]})], Normal tt)
  /\ resolveError ECONNREFUSED get_tags VNull
     = ([Respond (VNum 500)
           (VObj {[ "message" := VStr "Internal Server Error" ]})], Normal tt).
Proof.
  split.
  - destruct (resolveError_options_defaulted ECONNREFUSED get_tags oops_options)
      as (_ & _ & Hrun & _).
    exact (Hrun eq_refl eq_refl).
  - destruct (resolveError_options_defaulted ECONNREFUSED get_tags VNull)
      as (_ & _ & Hrun & _).
    exact (Hrun eq_refl eq_refl).
Defined.

Lemma resolveError_upstream_error_witness :
  resolveError bad_gateway get_tags VUndefined
  = ([Respond (VNum 502) (VObj {[ "code" := VStr "UPSTREAM_DOWN" ]})], Normal tt).
Proof.
  apply (resolveError_upstream_error bad_gateway get_tags eq_refl VUndefined
           (VNum 502) (VObj {[ "code" := VStr "UPSTREAM_DOWN" ]}));
    reflexivity.
Defined.

Lemma resolveError_upstream_without_payload_witness :
  resolveError bare_status get_tags (VObj {[ "log" := VBool true ]})
  = ([Respond (VNum 503) VUndefined], Normal tt).
Proof.
  apply (resolveError_upstream_without_payload bare_status get_tags eq_refl
           (VObj {[ "log" := VBool true ]}));
    reflexivity.
Defined.

Lemma resolveError_unclassified_witness :
  exists m : string,
    responses (trace (resolveError ECONNREFUSED get_tags
                        (VObj {[ "log" := VBool true ]})))
    = [(VNum 500, VObj {[ "message" := VStr m ]})]
    /\ String.prefix "Internal Server Error" m = true
    /\ m = "Internal Server Error"
    /\ trace (resolveError ECONNREFUSED get_tags
                (VObj {[ "log" := VBool true ]}))
       = [LogError "Internal Server Error. Reason: ECONNREFUSED"
            {[ "req" := VObj get_tags; "stack" := VStr "Error: ECONNREFUSED" ]};
          Respond (VNum 500) (VObj {[ "message" := VStr m ]})].
Proof.
  destruct (resolveError_unclassified ECONNREFUSED get_tags eq_refl
              (VObj {[ "log" := VBool true ]}) eq_refl)
    as (m & Hm & Hp & _ & Hterse & Hlog & _).
  exists m. split; [exact Hm |]. split; [exact Hp |].
  split; [apply Hterse; reflexivity | apply Hlog; reflexivity].
Defined.


Lemma defaultErrorHandler_profiles_witness :
  trace (defaultErrorHandler (VStr "production") ECONNREFUSED get_tags)
  = [LogError "Internal Server Error. Reason: ECONNREFUSED"
       {[ "req" := VObj get_tags; "stack" := VStr "Error: ECONNREFUSED" ]};
     Respond (VNum 500) (VObj {[ "message" := VStr "Internal Server Error" ]})].
Proof.
  apply (defaultErrorHandler_profiles (VStr "production")); reflexivity.
Defined.

(** C6 as first stated, with development contexts on the verbose profile,
    fails at the environment name ['development']: the handler chosen is the
    terse one, and the reason is left out of the response. *)
Lemma defaultErrorHandler_development_is_terse :
  defaultErrorHandler (VStr "development") ECONNREFUSED get_tags
  = productionErrorHandler ECONNREFUSED get_tags
  /\ responses
       (trace (defaultErrorHandler (VStr "development") ECONNREFUSED get_tags))
     = [(VNum 500, VObj {[ "message" := VStr "Internal Server Error" ]})]
  /\ responses
       (trace (defaultErrorHandler (VStr "development") ECONNREFUSED get_tags))
     <> responses (trace (developmentErrorHandler ECONNREFUSED get_tags)).
Proof.
  split; [reflexivity |]. split; [vm_compute; reflexivity |].
  vm_compute. intros H. discriminate H.
Qed.


Lemma proxy_pass_through_witness :
  defaultProxyRequest (fun _ => Fulfilled (VObj tags_response)) VUndefined get_tags
  = ([Outbound (defaultTargetOptions get_tags VUndefined);
      Respond (VNum 200) (VObj {[ "tags" := VStr "a,b" ]})], Normal tt)
  /\ resolveDefault (Fulfilled (VObj tags_response))
     = ([Respond (VNum 200) (VObj {[ "tags" := VStr "a,b" ]})], Normal tt).
Proof.
  apply (proxy_pass_through (fun _ => Fulfilled (VObj tags_response))
           VUndefined get_tags tags_response);
    reflexivity.
Defined.

Lemma proxy_failure_propagated_witness :
  defaultProxyRequest (fun _ => Rejected ECONNREFUSED) VUndefined get_tags
  = ([Outbound (defaultTargetOptions get_tags VUndefined); Next ECONNREFUSED],
     Normal tt).
Proof.
  apply (proxy_failure_propagated (fun _ => Rejected ECONNREFUSED)
           VUndefined get_tags).
  reflexivity.
Defined.

(** * Further properties of the module *)

(** ** What the error resolver logs and reads *)

(** X2. An entry is logged exactly when the failure is unclassified (not an
    [ApiError], falsy [statusCode]) and [log] is on: domain errors and
    upstream errors are never logged, whatever the options. *)
Theorem resolveError_logs_unclassified_only (err : js_error)
    (req : gmap string value) (options : value) :
  logged (trace (resolveError err req options)) <> []
  <-> class err = GenericError
      /\ truthy (get (props err) "statusCode") = false
      /\ truthy (get (effective_options options) "log") = true.
Proof.
  unfold resolveError.
  destruct (class err) as [|json].
  - destruct (truthy (get (props err) "statusCode")).
    + split; [intros H; by destruct H | intros (_ & H & _); discriminate H].
    + destruct (truthy (get (effective_options options) "log")).
      * split; [intros _; by repeat split | intros _; discriminate].
      * split; [intros H; by destruct H | intros (_ & _ & H); discriminate H].
  - split; [intros H; by destruct H | intros (H & _); discriminate H].
Qed.

(** X3. A key of the options object other than the three recognized ones has
    no effect on what [resolveError] does. *)
Theorem resolveError_ignores_other_keys (err : js_error)
    (req o : gmap string value) (k : string) (v : value) :
  k ∉ recognized ->
  resolveError err req (VObj (<[ k := v ]> o)) = resolveError err req (VObj o).
Proof.
  intros Hk. apply resolveError_options_ext. intros k' Hk'.
  rewrite !get_effective_options. cbn [supplied].
  rewrite lookup_insert_ne; [reflexivity |].
  intros ->. by apply Hk.
Qed.

Lemma resolveError_ignores_other_keys_witness :
  resolveError ECONNREFUSED get_tags
    (VObj (<[ "req" := VObj get_tags ]> {[ "log" := VBool true ]}))
  = resolveError ECONNREFUSED get_tags (VObj {[ "log" := VBool true ]}).
Proof.
  apply (resolveError_ignores_other_keys ECONNREFUSED get_tags
           {[ "log" := VBool true ]} "req" (VObj get_tags)).
  unfold recognized. rewrite !elem_of_cons, elem_of_nil.
  intros [H | [H | [H | H]]]; try discriminate H; exact H.
Defined.

(** X4. The environment changes nothing but the message of a 500 response:
    under any two environments the handlers record the same log entries and
    answer with the same status, and for a domain error or a failure with a
    truthy [statusCode] they do exactly the same. *)
Theorem defaultErrorHandler_environment_independent (e1 e2 : value)
    (err : js_error) (req : gmap string value) :
  logged (trace (defaultErrorHandler e1 err req))
  = logged (trace (defaultErrorHandler e2 err req))
  /\ (responses (trace (defaultErrorHandler e1 err req))).*1
     = (responses (trace (defaultErrorHandler e2 err req))).*1
  /\ (truthy (get (props err) "statusCode") = true
      \/ (exists json, class err = ApiError json) ->
      defaultErrorHandler e1 err req = defaultErrorHandler e2 err req).
Proof.
  destruct (class err) as [|json] eqn:Hc.
  - destruct (truthy (get (props err) "statusCode")) eqn:Ht.
    + assert (H : forall e, defaultErrorHandler e err req
                  = ([Respond (get (props err) "statusCode")
                        (get (props err) "error")], Normal tt)).
      { intros e. rewrite defaultErrorHandler_resolveError.
        unfold resolveError. by rewrite Hc, Ht. }
      rewrite (H e1), (H e2). by repeat split.
    + rewrite !(defaultErrorHandler_unclassified err req Hc _ Ht).
      repeat split.
      intros [H | [json H]]; discriminate H.
  - assert (H : forall e, defaultErrorHandler e err req
                = ([Respond (get (props err) "statusCode") json], Normal tt)).
    { intros e. rewrite defaultErrorHandler_resolveError.
      unfold resolveError. by rewrite Hc. }
    rewrite (H e1), (H e2). by repeat split.
Qed.

Lemma defaultErrorHandler_environment_independent_witness :
  defaultErrorHandler (VStr "localhost") bad_gateway get_tags
  = defaultErrorHandler (VStr "production") bad_gateway get_tags.
Proof.
  apply (defaultErrorHandler_environment_independent (VStr "localhost")
           (VStr "production") bad_gateway get_tags).
  left. reflexivity.
Defined.

(** ** The forwarder and the backend response *)

Section ForwarderOutcomes.

Variable baseRequest : gmap string value -> settled.
Variable uri : value.
Variable req : gmap string value.

(** X6. When the backend call is fulfilled with [undefined] or [null], no
    response is written: reading [statusCode] throws inside the [try] and the
    error goes to [next].  That error is not a domain error and has no status
    code, so [resolveError] answers it with status 500. *)
Theorem proxy_nullish_response (v : value) :
  baseRequest (defaultTargetOptions req uri) = Fulfilled v ->
  v = VUndefined \/ v = VNull ->
  exists e : js_error,
    defaultProxyRequest baseRequest uri req
    = ([Outbound (defaultTargetOptions req uri); Next e], Normal tt)
    /\ forall options : value,
         exists m : string,
           responses (trace (resolveError e req options))
           = [(VNum 500, VObj {[ "message" := VStr m ]})].
Proof.
  intros Hb Hv. exists (TypeError "statusCode" v). split.
  - unfold defaultProxyRequest. cbv zeta. rewrite Hb.
    destruct Hv as [-> | ->]; reflexivity.
  - intros options.
    rewrite (resolveError_unclassified_branch (TypeError "statusCode" v) req
               eq_refl options eq_refl).
    eexists.
    destruct (truthy (get (effective_options options) "log")); reflexivity.
Qed.

(** X7. Of a backend response only [statusCode] and [body] reach the caller:
    any other field of the response (its headers, say) is dropped. *)
Theorem proxy_relays_status_and_body_only (response : gmap string value)
    (k : string) (v : value) :
  k <> "statusCode" ->
  k <> "body" ->
  baseRequest (defaultTargetOptions req uri)
  = Fulfilled (VObj (<[ k := v ]> response)) ->
  defaultProxyRequest baseRequest uri req
  = ([Outbound (defaultTargetOptions req uri);
      Respond (get response "statusCode") (get response "body")], Normal tt).
Proof.
  intros Hs Hbody Hb. unfold defaultProxyRequest. cbv zeta. rewrite Hb.
  js_run. unfold get. rewrite !lookup_insert_ne by done. reflexivity.
Qed.

(** X8. The proxy handler is [resolveDefault] on the promise of the outbound
    call, wrapped in the call itself and in the [catch] that hands a
    rejection to [next]. *)
Theorem proxy_is_resolveDefault_caught :
  defaultProxyRequest baseRequest uri req
  = try_catch
      (emit (Outbound (defaultTargetOptions req uri));;
       resolveDefault (baseRequest (defaultTargetOptions req uri)))
      next.
Proof.
  unfold defaultProxyRequest, resolveDefault. cbv zeta.
  destruct (baseRequest (defaultTargetOptions req uri)) as [v | err];
    [destruct v |]; reflexivity.
Qed.

(** X10. The descriptor depends on five fields of the inbound request only:
    any other field, the raw [headers] among them, is not forwarded. *)
Theorem defaultTargetOptions_reads_five_fields (k : string) (v : value) :
  k ∉ forwarded_fields ->
  defaultTargetOptions (<[ k := v ]> req) uri = defaultTargetOptions req uri.
Proof.
  intros Hk. unfold forwarded_fields in Hk.
  rewrite !not_elem_of_cons in Hk.
  destruct Hk as (H1 & H2 & H3 & H4 & H5 & _).
  unfold defaultTargetOptions, get.
  rewrite !lookup_insert_ne by done. reflexivity.
Qed.

(** X11. The handler registered in [controller/tags.js] passes no override:
    its one outbound call keeps the inbound method and targets the original
    path and query string, with the passed headers, body and query. *)
Theorem tags_handler_forwards_original :
  exists d : gmap string value,
    outbound_calls (trace (tags_handler baseRequest req)) = [d]
    /\ d !! "method" = Some (get req "method")
    /\ d !! "uri" = Some (get req "originalUrl")
    /\ d !! "headers" = Some (get req "passedHeaders")
    /\ d !! "body" = Some (get req "body")
    /\ d !! "qs" = Some (get req "query").
Proof.
  exists (defaultTargetOptions req VUndefined). split.
  - unfold tags_handler, defaultProxyHandler, defaultProxyRequest. cbv zeta.
    destruct (baseRequest (defaultTargetOptions req VUndefined)) as [v | err];
      [destruct v |]; reflexivity.
  - repeat split; reflexivity.
Qed.

End ForwarderOutcomes.

(** X9. [resolveDefault] handles no failure.  When the request promise is
    rejected, nothing is written and the promise returned is rejected with
    the same error; when it is fulfilled with [undefined] or [null], nothing
    is written and the promise returned is rejected with the error of the
    property read.  Neither error reaches [next] or the log: unlike the proxy
    handler, the caller has to catch. *)
Theorem resolveDefault_failure_unhandled (requestPromise : settled) :
  (forall err : js_error,
     requestPromise = Rejected err ->
     resolveDefault requestPromise = ([], Throw err))
  /\ (forall v : value,
        requestPromise = Fulfilled v ->
        v = VUndefined \/ v = VNull ->
        exists e : js_error, resolveDefault requestPromise = ([], Throw e)).
Proof.
  split.
  - intros err ->. reflexivity.
  - intros v -> [-> | ->]; eexists; reflexivity.
Qed.

(** ** The CORS middleware *)

Lemma js_or_truthy (v w : value) : truthy w = true -> truthy (js_or v w) = true.
Proof. intros Hw. unfold js_or. by destruct (truthy v) eqn:Hv. Qed.

Lemma js_or_idem (v w : value) :
  truthy w = true -> js_or (js_or v w) w = js_or v w.
Proof.
  intros Hw. unfold js_or at 1. by rewrite (js_or_truthy v w Hw).
Qed.

Lemma cors_object (o : gmap string value) :
  cors (VObj o)
  = ([], Normal (VObj (<[ "allowedOrigin" :=
                           js_or (get o "allowedOrigin") (VStr "*") ]> o))).
Proof. reflexivity. Qed.

Lemma cors_middleware_object (o : gmap string value) :
  cors_middleware (VObj o) = Normal (cors_headers (get o "allowedOrigin")).
Proof. reflexivity. Qed.

(** X12. For an options object, or with the argument left out, the
    middleware sets the three headers and then calls [next()]; the allowed
    origin is the configured [allowedOrigin] when that is truthy and ['*']
    when it is absent or falsy, so it is never empty. *)
Theorem cors_allow_origin (options : value) (o : gmap string value) :
  options = VObj o \/ (options = VUndefined /\ o = ∅) ->
  let origin := if truthy (get o "allowedOrigin")
                then get o "allowedOrigin" else VStr "*" in
  cors_request options = Normal (cors_headers origin)
  /\ truthy origin = true.
Proof.
  intros Hopt origin.
  assert (Hrun : cors_request options = cors_request (VObj o)).
  { destruct Hopt as [-> | [-> ->]]; reflexivity. }
  rewrite Hrun. unfold cors_request. rewrite cors_object.
  cbn [outcome_of snd]. rewrite cors_middleware_object.
  unfold get at 1. rewrite lookup_insert_eq. cbn [default from_option id].
  split; [reflexivity |].
  subst origin. by destruct (truthy (get o "allowedOrigin")) eqn:Ht.
Qed.

Lemma cors_allow_origin_witness :
  cors_request VUndefined = Normal (cors_headers (VStr "*")).
Proof.
  destruct (cors_allow_origin VUndefined ∅ (or_intror (conj eq_refl eq_refl)))
    as [Hrun _].
  exact Hrun.
Defined.

(** X13. Building the middleware fails for [null], which the default
    parameter does not replace, and for nothing else: with any other argument
    the middleware sets its three headers and calls [next()] once. *)
Theorem cors_fails_on_null_only (options : value) :
  (options = VNull -> exists e : js_error, cors_request options = Throw e)
  /\ (options <> VNull ->
      exists origin : value, cors_request options = Normal (cors_headers origin)).
Proof.
  split.
  - intros ->. eexists. reflexivity.
  - intros Hn. destruct options; try (eexists; reflexivity).
    by destruct Hn.
Qed.

Lemma cors_fails_on_null_only_witness :
  (exists e : js_error, cors_request VNull = Throw e)
  /\ (exists origin : value,
        cors_request (VStr "https://example.org")
        = Normal (cors_headers origin)).
Proof.
  split.
  - apply (cors_fails_on_null_only VNull). reflexivity.
  - apply (cors_fails_on_null_only (VStr "https://example.org")). discriminate.
Defined.

(** X14. [cors] writes into the caller's options object, and into its
    [allowedOrigin] only: every other property is left as it was, and an
    object whose [allowedOrigin] is already truthy is left unchanged. *)
Theorem cors_touches_allowedOrigin_only (o : gmap string value) :
  exists o' : gmap string value,
    cors (VObj o) = ([], Normal (VObj o'))
    /\ o' !! "allowedOrigin"
       = Some (js_or (get o "allowedOrigin") (VStr "*"))
    /\ (forall k : string, k <> "allowedOrigin" -> o' !! k = o !! k)
    /\ (truthy (get o "allowedOrigin") = true -> o' = o).
Proof.
  eexists. split; [apply cors_object |].
  split; [apply lookup_insert_eq |].
  split; [intros k Hk; by rewrite lookup_insert_ne |].
  intros Ht. unfold js_or. rewrite Ht. apply insert_id.
  unfold get in *. destruct (o !! "allowedOrigin"); [reflexivity |].
  discriminate Ht.
Qed.

Lemma cors_touches_allowedOrigin_only_witness :
  exists o' : gmap string value,
    cors (VObj {[ "allowedOrigin" := VStr "https://example.org" ]})
    = ([], Normal (VObj o'))
    /\ o' = {[ "allowedOrigin" := VStr "https://example.org" ]}.
Proof.
  destruct (cors_touches_allowedOrigin_only
              {[ "allowedOrigin" := VStr "https://example.org" ]})
    as (o' & Hrun & _ & _ & Hsame).
  exists o'. split; [exact Hrun | apply Hsame; reflexivity].
Defined.

(** X15. Building the middleware again from the options that [cors] has
    already filled in changes nothing: the same options are held and the same
    headers are sent. *)
Theorem cors_idempotent (options held : value) :
  cors options = ([], Normal held) ->
  cors held = ([], Normal held)
  /\ cors_request held = cors_request options.
Proof.
  intros Hrun.
  assert (Hheld : cors held = ([], Normal held)).
  { destruct options as [| |b|n| |s|o].
    7: { rewrite cors_object in Hrun. injection Hrun as <-.
         rewrite cors_object. do 3 f_equal.
         unfold get at 1. rewrite lookup_insert_eq. cbn [default from_option id].
         rewrite js_or_idem by reflexivity.
         apply insert_insert_eq. }
    all: by inversion Hrun. }
  split; [exact Hheld |].
  unfold cors_request. rewrite Hheld, Hrun. reflexivity.
Qed.

Lemma cors_idempotent_witness :
  cors (VObj {[ "allowedOrigin" := VStr "*" ]})
  = ([], Normal (VObj {[ "allowedOrigin" := VStr "*" ]})).
Proof.
  apply (cors_idempotent VUndefined (VObj {[ "allowedOrigin" := VStr "*" ]})).
  reflexivity.
Defined.

(** ** The further theorems at concrete inputs *)

Lemma resolveError_logs_unclassified_only_witness :
  logged (trace (resolveError ECONNREFUSED get_tags
                   (VObj {[ "log" := VBool true ]}))) <> [].
Proof.
  apply (resolveError_logs_unclassified_only ECONNREFUSED get_tags
           (VObj {[ "log" := VBool true ]})).
  repeat split; reflexivity.
Defined.

Lemma proxy_nullish_response_witness :
  exists e : js_error,
    defaultProxyRequest (fun _ => Fulfilled VUndefined) VUndefined get_tags
    = ([Outbound (defaultTargetOptions get_tags VUndefined); Next e], Normal tt).
Proof.
  destruct (proxy_nullish_response (fun _ => Fulfilled VUndefined) VUndefined
              get_tags VUndefined eq_refl (or_introl eq_refl))
    as (e & He & _).
  exists e. exact He.
Defined.

Lemma proxy_relays_status_and_body_only_witness :
  defaultProxyRequest
    (fun _ => Fulfilled
                (VObj (<[ "headers" := VObj {[ "etag" := VStr "x" ]} ]>
                         tags_response)))
    VUndefined get_tags
  = ([Outbound (defaultTargetOptions get_tags VUndefined);
      Respond (get tags_response "statusCode") (get tags_response "body")],
     Normal tt).
Proof.
  apply (proxy_relays_status_and_body_only
           (fun _ => Fulfilled
                       (VObj (<[ "headers" := VObj {[ "etag" := VStr "x" ]} ]>
                                tags_response)))
           VUndefined get_tags tags_response "headers"
           (VObj {[ "etag" := VStr "x" ]}));
    [discriminate | discriminate | reflexivity].
Defined.

Lemma defaultTargetOptions_reads_five_fields_witness :
  defaultTargetOptions with_cookie VUndefined
  = defaultTargetOptions get_tags VUndefined.
Proof.
  apply (defaultTargetOptions_reads_five_fields VUndefined get_tags "headers"
           (VObj {[ "cookie" := VStr "sid=1" ]})).
  unfold forwarded_fields. rewrite !not_elem_of_cons.
  repeat split; try discriminate. apply not_elem_of_nil.
Defined.

Lemma resolveDefault_failure_unhandled_witness :
  resolveDefault (Rejected ECONNREFUSED) = ([], Throw ECONNREFUSED)
  /\ exists e : js_error, resolveDefault (Fulfilled VNull) = ([], Throw e).
Proof.
  split.
  - apply (resolveDefault_failure_unhandled (Rejected ECONNREFUSED)).
    reflexivity.
  - destruct (resolveDefault_failure_unhandled (Fulfilled VNull)) as [_ Hnull].
    apply (Hnull VNull); [reflexivity | right; reflexivity].
Defined.
